(** * vue-fetchable: the axios fetcher ([src/fetchers/axios.ts])

    A shallow embedding of the response wrapper [request], the error class
    [BackendFetchError], the reactive record built by [reactiveFetch] and the
    refetching hook [hookFetch], followed by the properties of the fetch
    life cycle.

    JavaScript values are untyped at run time, so the embedding works on a
    small universe of run-time values; the TypeScript annotations of the
    source appear only as hypotheses of the theorems that need them. *)

From Stdlib Require Import ZArith String List Bool Lia DecimalString.
Import ListNotations.
Open Scope string_scope.
Set Warnings "-register-all".

(* ===================================================================== *)
(** ** Run-time values *)
(* ===================================================================== *)

(** The values the fetcher handles: JSON data delivered by the transport,
    the transport's response object, and error objects.  Numbers are the
    integer-valued safe integers, plus [NaN]; an object is the list of its
    own properties, the first binding of a key being the live one.  An error
    object carries its [name] and [message] and its further own properties. *)
Inductive value : Type :=
| VUndefined
| VNull
| VBool (b : bool)
| VNum (n : Z)
| VNaN
| VStr (s : string)
| VObj (props : list (string * value))
| VError (name message : string) (own : list (string * value)).

(** Own-property lookup. *)
Fixpoint assoc (k : string) (props : list (string * value)) : option value :=
  match props with
  | [] => None
  | (k', v) :: rest => if String.eqb k k' then Some v else assoc k rest
  end.

(** A completion: an expression or a function body either yields a value or
    throws one. *)
Inductive completion (A : Type) : Type :=
| Normal (a : A)
| Throw (e : value).
Arguments Normal {A} a.
Arguments Throw {A} e.

Definition cbind {A B} (c : completion A) (k : A -> completion B) : completion B :=
  match c with
  | Normal a => k a
  | Throw e => Throw e
  end.

Declare Scope js_scope.
Delimit Scope js_scope with js.
Notation "x <- c ;; k" := (cbind c (fun x => k))
  (at level 61, c at next level, right associativity) : js_scope.

(** The error the engine raises; its message text is the engine's. *)
Definition TypeError (message : string) : value := VError "TypeError" message [].

(** [v.k], for the property names the source reads ([data], [success],
    [error], [message]), none of which a built-in prototype of a plain
    object or of a primitive defines.  Reading a property of [undefined] or
    [null] throws; a primitive has no such property; an error object answers
    [message] and [name] itself. *)
Definition Get (v : value) (k : string) : completion value :=
  match v with
  | VUndefined =>
      Throw (TypeError ("Cannot read properties of undefined (reading '" ++ k ++ "')"))
  | VNull =>
      Throw (TypeError ("Cannot read properties of null (reading '" ++ k ++ "')"))
  | VObj props =>
      Normal (match assoc k props with Some x => x | None => VUndefined end)
  | VError name message own =>
      Normal (if String.eqb k "message" then VStr message
              else if String.eqb k "name" then VStr name
              else match assoc k own with Some x => x | None => VUndefined end)
  | VBool _ | VNum _ | VNaN | VStr _ => Normal VUndefined
  end.

(** Truthiness, as tested by [!x] and [if (x)]. *)
Definition ToBoolean (v : value) : bool :=
  match v with
  | VUndefined | VNull | VNaN => false
  | VBool b => b
  | VNum n => negb (Z.eqb n 0)
  | VStr s => negb (String.eqb s "")
  | VObj _ | VError _ _ _ => true
  end.

(** String conversion.  No value of the universe is callable, so an object
    with an own [toString] property has no usable conversion method and the
    conversion throws; any other plain object prints through
    [Object.prototype.toString], an error through [Error.prototype.toString].
    A number prints in decimal, as the safe integers do. *)
Definition ToString (v : value) : completion string :=
  match v with
  | VUndefined => Normal "undefined"
  | VNull => Normal "null"
  | VBool true => Normal "true"
  | VBool false => Normal "false"
  | VNum n => Normal (NilZero.string_of_int (Z.to_int n))
  | VNaN => Normal "NaN"
  | VStr s => Normal s
  | VObj props =>
      match assoc "toString" props with
      | Some _ => Throw (TypeError "Cannot convert object to primitive value")
      | None => Normal "[object Object]"
      end
  | VError name message own =>
      match assoc "toString" own with
      | Some _ => Throw (TypeError "Cannot convert object to primitive value")
      | None =>
          Normal (if String.eqb name "" then message
                  else if String.eqb message "" then name
                  else name ++ ": " ++ message)
      end
  end.

(** How a promise settles, [await], and the promise an [async] function
    returns for the completion of its body. *)
Inductive settled : Type :=
| Fulfilled (v : value)
| Rejected (reason : value).

Definition await (p : settled) : completion value :=
  match p with
  | Fulfilled v => Normal v
  | Rejected reason => Throw reason
  end.

Definition async_return (c : completion value) : settled :=
  match c with
  | Normal v => Fulfilled v
  | Throw e => Rejected e
  end.

(* ===================================================================== *)
(** ** [frmt] *)
(* ===================================================================== *)

(** [(...str) => ["[vue-fetchable]", ...str].join(" ")] *)
Definition frmt (str : list string) : string :=
  String.concat " " ("[vue-fetchable]" :: str).

(* ===================================================================== *)
(** ** [BackendFetchError] *)
(* ===================================================================== *)

(** [new Error(message)]: the message is converted to a string unless it is
    [undefined], in which case the error reads the prototype's empty one. *)
Definition Error_message (message : value) : completion string :=
  match message with
  | VUndefined => Normal ""
  | _ => ToString message
  end.

(** [new BackendFetchError(error, res)]: [super(error.message)], then the
    assignments of [name], [error] and [res]; an omitted [res] is
    [undefined]. *)
Definition BackendFetchError (error res : value) : completion value :=
  (m <- Get error "message" ;;
   message <- Error_message m ;;
   Normal (VError "BackendFetchError" message [("error", error); ("res", res)]))%js.

(* ===================================================================== *)
(** ** [request] *)
(* ===================================================================== *)

Section Wrapper.

(** [axiosInstance.request]: how the promise of the transport call for a
    configuration settles. *)
Variable axiosInstance_request : value -> settled.

(** The body of [request]; the promise it returns is [async_return] of
    this completion. *)
Definition request (config : value) : completion value :=
  (request <- await (axiosInstance_request config) ;;
   data <- Get request "data" ;;
   success <- Get data "success" ;;
   if negb (ToBoolean success) then
     data' <- Get request "data" ;;
     error <- Get data' "error" ;;
     e <- BackendFetchError error request ;;
     Throw e
   else Normal request)%js.

(** [req = request] *)
Definition req := request.

End Wrapper.

(* ===================================================================== *)
(** ** The reactive record *)
(* ===================================================================== *)

(** [FetchableState = null | boolean]: [None] is [null]. *)
Definition FetchableState : Type := option bool.

(** The functions the [request] field holds: the placeholder
    [async () => null] and the closure [fetchData]. *)
Inductive callable : Type :=
| AsyncNull
| FetchData.

(** The object literal [hookFetch] passes to [reactiveFetch]. *)
Module Data.
Record t : Type := mk { data : value; request : callable; err : value }.
End Data.

(** The reactive record: the fields of the literal and [fetch].  Vue's
    [reactive] is taken as a plain mutable object. *)
Module Fetchable.
Record t : Type :=
  mk { data : value; request : callable; err : value; fetch : FetchableState }.
End Fetchable.

(** [reactive({ ...data, fetch: defaultFetch })]; an omitted [defaultFetch]
    ([None]) takes the default [null]. *)
Definition reactiveFetch (data : Data.t) (defaultFetch : option FetchableState)
  : Fetchable.t :=
  {| Fetchable.data := Data.data data;
     Fetchable.request := Data.request data;
     Fetchable.err := Data.err data;
     Fetchable.fetch := match defaultFetch with
                        | Some f => f
                        | None => None
                        end |}.

(* ===================================================================== *)
(** ** The hook's run-time state and its monad *)
(* ===================================================================== *)

(** What an activation of [fetchData] can touch: the reactive record and the
    console.  Two counters record the run: how often [fetchFn] has been
    called, and how many activations are suspended at their [await]. *)
Record world : Type :=
  mkWorld { record : Fetchable.t;
            console : list (list value);
            calls : nat;
            suspended : nat }.

Definition M (A : Type) : Type := world -> completion A * world.

Definition ret {A} (a : A) : M A := fun w => (Normal a, w).

Definition throw {A} (e : value) : M A := fun w => (Throw e, w).

Definition bind {A B} (m : M A) (k : A -> M B) : M B :=
  fun w =>
    match m w with
    | (Normal a, w') => k a w'
    | (Throw e, w') => (Throw e, w')
    end.

Definition lift {A} (c : completion A) : M A := fun w => (c, w).

(** [try { body } catch (error) { handler }] *)
Definition try_catch {A} (body : M A) (handler : value -> M A) : M A :=
  fun w =>
    match body w with
    | (Normal a, w') => (Normal a, w')
    | (Throw e, w') => handler e w'
    end.

Declare Scope hook_scope.
Delimit Scope hook_scope with hook.
Notation "x <- m ;; k" := (bind m (fun x => k))
  (at level 61, m at next level, right associativity) : hook_scope.
Notation "m ;; k" := (bind m (fun _ => k))
  (at level 61, right associativity) : hook_scope.

Definition update (f : Fetchable.t -> Fetchable.t) : M unit :=
  fun w => (Normal tt,
            {| record := f (record w); console := console w;
               calls := calls w; suspended := suspended w |}).

(** [data.data = v], [data.fetch = f], [data.err = e], [data.request = c] *)
Definition set_data (v : value) : M unit :=
  update (fun r => {| Fetchable.data := v; Fetchable.request := Fetchable.request r;
                      Fetchable.err := Fetchable.err r; Fetchable.fetch := Fetchable.fetch r |}).

Definition set_fetch (f : FetchableState) : M unit :=
  update (fun r => {| Fetchable.data := Fetchable.data r; Fetchable.request := Fetchable.request r;
                      Fetchable.err := Fetchable.err r; Fetchable.fetch := f |}).

Definition set_err (e : value) : M unit :=
  update (fun r => {| Fetchable.data := Fetchable.data r; Fetchable.request := Fetchable.request r;
                      Fetchable.err := e; Fetchable.fetch := Fetchable.fetch r |}).

Definition set_request (c : callable) : M unit :=
  update (fun r => {| Fetchable.data := Fetchable.data r; Fetchable.request := c;
                      Fetchable.err := Fetchable.err r; Fetchable.fetch := Fetchable.fetch r |}).

(** [console.log(...args)] *)
Definition console_log (args : list value) : M unit :=
  fun w => (Normal tt,
            {| record := record w; console := console w ++ [args];
               calls := calls w; suspended := suspended w |}).

Definition count_call : M unit :=
  fun w => (Normal tt,
            {| record := record w; console := console w;
               calls := S (calls w); suspended := suspended w |}).

Definition suspend : M unit :=
  fun w => (Normal tt,
            {| record := record w; console := console w;
               calls := calls w; suspended := S (suspended w) |}).

Definition resume : M unit :=
  fun w => (Normal tt,
            {| record := record w; console := console w;
               calls := calls w; suspended := pred (suspended w) |}).

(* ===================================================================== *)
(** ** [hookFetch] *)
(* ===================================================================== *)

(** What one call [fetchFn()] does before [fetchData] awaits it: it throws,
    or it returns the promise (or plain value) to await. *)
Inductive call : Type :=
| Threw (e : value)
| Returned.

Section Hook.

(** [process.env.NODE_ENV] *)
Variable NODE_ENV : string.

(** The statements of the [try] block that follow the [await]; [res] is
    the awaited result.  The value is what [fetchData] returns. *)
Definition fetchData_try (res : value) : M value :=
  ((if String.eqb NODE_ENV "development"
    then console_log [VStr (frmt ["Response: "]); res]
    else ret tt) ;;
   if negb (ToBoolean res) then
     set_fetch (Some false) ;;
     ret (VBool false)
   else
     set_fetch (Some true) ;;
     data <- lift (Get res "data") ;;
     payload <- lift (Get data "data") ;;
     set_data payload ;;
     ret VUndefined)%hook.

(** The [catch] block. *)
Definition fetchData_catch (error : value) : M value :=
  (set_fetch (Some false) ;;
   set_err error ;;
   ret VUndefined)%hook.

(** [fetchData] from its first statement to the [await]: the reset of
    [data], then the call of [fetchFn] inside the [try].  When the call
    throws, the [catch] block runs at once and the activation is over
    ([Some] of its return value); otherwise it is suspended ([None]). *)
Definition fetchData_enter (c : call) : M (option value) :=
  (set_data VNull ;;
   count_call ;;
   match c with
   | Threw e =>
       v <- try_catch (throw e) fetchData_catch ;;
       ret (Some v)
   | Returned =>
       suspend ;;
       ret None
   end)%hook.

(** [fetchData] from the [await] on, once the awaited promise has settled. *)
Definition fetchData_resume (o : settled) : M value :=
  (resume ;;
   try_catch (res <- lift (await o) ;; fetchData_try res) fetchData_catch)%hook.

(** A call of the record's [request] field. *)
Definition call_request (c : call) : M (option value) :=
  fun w =>
    match Fetchable.request (record w) with
    | AsyncNull => (Normal (Some VNull), w)
    | FetchData => fetchData_enter c w
    end.

(** [hookFetch(fetchFn, auto)]; [c] is what the call of [fetchFn] made
    during construction does, an omitted [auto] ([None]) is [true].  The
    result is the returned record together with the state of the run. *)
Definition hookFetch (c : call) (auto : option bool) : world :=
  let data :=
    reactiveFetch {| Data.data := VNull; Data.request := AsyncNull; Data.err := VNull |}
                  None in
  let w := {| record := data; console := []; calls := 0; suspended := 0 |} in
  let w := snd (set_request FetchData w) in
  if match auto with Some b => b | None => true end
  then snd (fetchData_enter c w)
  else w.

(** *** Runs of the hook *)

(** What happens to a record after construction: somebody calls
    [request], or the promise a suspended activation awaits settles. *)
Inductive event : Type :=
| Invoke (c : call)
| Settle (o : settled).

Definition step (w : world) (ev : event) : option world :=
  match ev with
  | Invoke c => Some (snd (call_request c w))
  | Settle o =>
      match suspended w with
      | O => None
      | S _ => Some (snd (fetchData_resume o w))
      end
  end.

Fixpoint run (w : world) (evs : list event) : option world :=
  match evs with
  | [] => Some w
  | ev :: rest =>
      match step w ev with
      | Some w' => run w' rest
      | None => None
      end
  end.

(** How [fetchFn] behaves over one whole activation. *)
Inductive producer : Type :=
| Throws (e : value)
| Settles (o : settled).

(** One activation of [fetchData] run from start to end with nothing in
    between; the first component is how the promise it returns settles. *)
Definition fetchData (p : producer) : world -> settled * world :=
  fun w =>
    match p with
    | Throws e =>
        match fetchData_enter (Threw e) w with
        | (Normal (Some v), w') => (Fulfilled v, w')
        | (Normal None, w') => (Fulfilled VUndefined, w')
        | (Throw x, w') => (Rejected x, w')
        end
    | Settles o =>
        let (c, w') := fetchData_resume o (snd (fetchData_enter Returned w)) in
        (async_return c, w')
    end.

End Hook.

(* ===================================================================== *)
(** ** Notions used by the statements *)
(* ===================================================================== *)

(** [res.data.data], as [fetchData] reads it. *)
Definition payload_of (res : value) : completion value :=
  (data <- Get res "data" ;; Get data "data")%js.

(** A resolved value the hook can unwrap: truthy, with a [data] property
    that is neither [undefined] nor [null]. *)
Definition is_response (res : value) : bool :=
  ToBoolean res &&
  match payload_of res with
  | Normal _ => true
  | Throw _ => false
  end.

(** The events of a run in which every fetch resolves with a response. *)
Definition successful (ev : event) : bool :=
  match ev with
  | Invoke Returned => true
  | Invoke (Threw _) => false
  | Settle (Fulfilled res) => is_response res
  | Settle (Rejected _) => false
  end.

(** The three fields a finished activation is judged by. *)
Definition shows (w : world) (fetch : FetchableState) (data err : value) : Prop :=
  Fetchable.fetch (record w) = fetch /\
  Fetchable.data (record w) = data /\
  Fetchable.err (record w) = err.

(** Sample data: a response carrying a success envelope, one carrying a
    failure envelope, and the hook's state without a first fetch. *)
Definition sample_success : value :=
  VObj [("data", VObj [("success", VBool true); ("data", VObj [("id", VNum 1)])]);
        ("status", VNum 200)].

Definition sample_failure : value :=
  VObj [("data", VObj [("success", VBool false);
                       ("error", VObj [("message", VStr "not found"); ("code", VNum 404)])]);
        ("status", VNum 200)].

Definition idle : world := hookFetch Returned (Some false).

(** Objects, as opposed to primitives, [undefined] and [null]. *)
Definition is_object (v : value) : bool :=
  match v with
  | VObj _ | VError _ _ _ => true
  | _ => false
  end.

Definition is_null (v : value) : bool :=
  match v with
  | VNull => true
  | _ => false
  end.

(** The status a settlement leaves in [fetch]. *)
Definition settlement (o : settled) : bool :=
  match o with
  | Fulfilled res => is_response res
  | Rejected _ => false
  end.

(** What the promise of [fetchData] resolves with for a producer. *)
Definition resolution (p : producer) : value :=
  match p with
  | Settles (Fulfilled v) => if ToBoolean v then VUndefined else VBool false
  | Settles (Rejected _) | Throws _ => VUndefined
  end.

(** The calls of [request] among the events of a run. *)
Definition invocations (evs : list event) : nat :=
  length (filter (fun ev => match ev with Invoke _ => true | Settle _ => false end) evs).

(** The console lines a run writes in development: one for each fulfilled
    promise, none for a rejected one. *)
Definition logged (evs : list event) : list (list value) :=
  flat_map (fun ev =>
              match ev with
              | Settle (Fulfilled res) => [[VStr (frmt ["Response: "]); res]]
              | _ => []
              end) evs.

(** Events that throw or reject with something other than [null]. *)
Definition throws_no_null (ev : event) : bool :=
  match ev with
  | Invoke (Threw e) => negb (is_null e)
  | Settle (Rejected e) => negb (is_null e)
  | _ => true
  end.

(** Activations run one after the other from a state. *)
Definition fetches NODE_ENV (ps : list producer) (w : world) : world :=
  fold_left (fun w p => snd (fetchData NODE_ENV p w)) ps w.

(** The value an activation puts in [err], if it fails: what the producer
    threw or rejected with, or the exception of reading [res.data.data]. *)
Definition failure (p : producer) : option value :=
  match p with
  | Throws e => Some e
  | Settles (Rejected e) => Some e
  | Settles (Fulfilled res) =>
      if ToBoolean res then
        match payload_of res with
        | Normal _ => None
        | Throw x => Some x
        end
      else None
  end.

(** The failure of the latest failed activation, [before] when there is none. *)
Definition last_failure (ps : list producer) (before : value) : value :=
  fold_left (fun e p => match failure p with Some x => x | None => e end) ps before.

(* ===================================================================== *)
(** ** Proof automation *)
(* ===================================================================== *)

(** Unfolds one activation down to the tests on symbolic data. *)
Ltac activation :=
  unfold fetchData, fetchData_resume, fetchData_enter, fetchData_try,
         fetchData_catch, try_catch, bind, lift, ret, throw,
         set_data, set_fetch, set_err, update, console_log,
         count_call, suspend, resume, shows;
  simpl.

Ltac by_environment NODE_ENV :=
  destruct (String.eqb NODE_ENV "development"); simpl.

(** Splits the continuation of an activation along the tests it makes on
    the awaited result. *)
Ltac resumption NODE_ENV res :=
  activation; by_environment NODE_ENV;
  destruct (ToBoolean res) eqn:?; simpl;
  try (destruct (Get res "data") as [?d|?x] eqn:?; simpl;
       try match goal with
           | d : value |- context [Get ?d' "data"] =>
               destruct (Get d' "data") as [?payload|?x] eqn:?; simpl
           end).

(* ===================================================================== *)
(** ** Sanity checks *)
(* ===================================================================== *)

Example frmt_response : frmt ["Response: "] = "[vue-fetchable] Response: ".
Proof. reflexivity. Qed.

Example ToString_num : ToString (VNum (-404)) = Normal "-404".
Proof. reflexivity. Qed.

(** The transport returns a failure envelope: the hook ends with [fetch]
    false and an [err] whose message is the envelope's. *)
Example failure_scenario :
  let producer := Settles (async_return (request (fun _ => Fulfilled sample_failure) (VObj []))) in
  let w := snd (fetchData "production" producer idle) in
  Fetchable.fetch (record w) = Some false /\
  Get (Fetchable.err (record w)) "message" = Normal (VStr "not found").
Proof. split; reflexivity. Qed.

(** In development the awaited result is logged before it is tested. *)
Example development_log :
  console (snd (fetchData "development" (Settles (Fulfilled (VBool false))) idle)) =
    [[VStr "[vue-fetchable] Response: "; VBool false]].
Proof. reflexivity. Qed.

(** Two overlapping activations write the same record: the later
    settlement decides [fetch], the data of the earlier one stays. *)
Example overlapping_activations :
  exists w,
    run "production" idle
        [Invoke Returned; Invoke Returned;
         Settle (Fulfilled sample_success); Settle (Rejected (VStr "offline"))] = Some w /\
    shows w (Some false) (VObj [("id", VNum 1)]) (VStr "offline") /\
    suspended w = 0 /\ calls w = 2.
Proof. eexists. split; [reflexivity|]. repeat split. Qed.

(** No promise settles when no activation is suspended. *)
Example nothing_to_settle :
  run "production" idle [Settle (Fulfilled sample_success)] = None.
Proof. reflexivity. Qed.

(* ===================================================================== *)
(** ** Properties of [request] *)
(* ===================================================================== *)

Lemma Get_present (v : value) (k : string) (x : value) :
  Get v k = Normal x -> v <> VUndefined /\ v <> VNull.
Proof. destruct v; simpl; intros H; split; congruence. Qed.

(** A transport failure passes through [request] untouched. *)
Lemma request_transport_failure axios config reason :
  axios config = Rejected reason ->
  request axios config = Throw reason.
Proof. intros H. unfold request. rewrite H. reflexivity. Qed.

(** A truthy discriminant: the response is handed back as it came. *)
Lemma request_truthy axios config res envelope success :
  axios config = Fulfilled res ->
  Get res "data" = Normal envelope ->
  Get envelope "success" = Normal success ->
  ToBoolean success = true ->
  request axios config = Normal res.
Proof.
  intros Hax Hd Hs Ht. unfold request.
  rewrite Hax. simpl. rewrite Hd. simpl. rewrite Hs. simpl.
  rewrite Ht. reflexivity.
Qed.

(** A falsy discriminant: [request] throws whatever the construction of the
    error yields, be it the error or the exception of the constructor. *)
Lemma request_falsy axios config res envelope success error :
  axios config = Fulfilled res ->
  Get res "data" = Normal envelope ->
  Get envelope "success" = Normal success ->
  ToBoolean success = false ->
  Get envelope "error" = Normal error ->
  request axios config =
    match BackendFetchError error res with
    | Normal e => Throw e
    | Throw x => Throw x
    end.
Proof.
  intros Hax Hd Hs Hf He. unfold request.
  rewrite Hax. simpl. rewrite Hd. simpl. rewrite Hs. simpl.
  rewrite Hf. simpl. rewrite He. simpl.
  destruct (BackendFetchError error res); reflexivity.
Qed.

Lemma request_falsy_throws axios config res envelope success :
  axios config = Fulfilled res ->
  Get res "data" = Normal envelope ->
  Get envelope "success" = Normal success ->
  ToBoolean success = false ->
  exists e, request axios config = Throw e.
Proof.
  intros Hax Hd Hs Hf.
  destruct (Get envelope "error") as [error|x] eqn:He.
  - rewrite (request_falsy _ _ _ _ _ _ Hax Hd Hs Hf He).
    destruct (BackendFetchError error res); eauto.
  - unfold request. rewrite Hax. simpl. rewrite Hd. simpl. rewrite Hs. simpl.
    rewrite Hf. simpl. rewrite He. simpl. eauto.
Qed.

(** C7: for a failure envelope ([success] false, [error] an
    [ErrorDescription] with its string [message]) [request] throws a
    [BackendFetchError] whose message is [error.message], whose [error] is
    the envelope's description and whose [res] is the transport response. *)
Theorem request_failure_envelope axios config res envelope error message :
  axios config = Fulfilled res ->
  Get res "data" = Normal envelope ->
  Get envelope "success" = Normal (VBool false) ->
  Get envelope "error" = Normal error ->
  Get error "message" = Normal (VStr message) ->
  exists e,
    request axios config = Throw e /\
    Get e "name" = Normal (VStr "BackendFetchError") /\
    Get e "message" = Normal (VStr message) /\
    Get e "error" = Normal error /\
    Get e "res" = Normal res.
Proof.
  intros Hax Hd Hs He Hm.
  exists (VError "BackendFetchError" message [("error", error); ("res", res)]).
  split; [|repeat split].
  rewrite (request_falsy _ _ _ _ _ _ Hax Hd Hs eq_refl He).
  unfold BackendFetchError. rewrite Hm. reflexivity.
Qed.

Lemma request_failure_envelope_witness :
  exists e,
    request (fun _ => Fulfilled sample_failure) (VObj [("url", VStr "/users/7")]) = Throw e /\
    Get e "name" = Normal (VStr "BackendFetchError") /\
    Get e "message" = Normal (VStr "not found") /\
    Get e "error" = Normal (VObj [("message", VStr "not found"); ("code", VNum 404)]) /\
    Get e "res" = Normal sample_failure.
Proof.
  apply (request_failure_envelope (fun _ => Fulfilled sample_failure) _ sample_failure
           (VObj [("success", VBool false);
                  ("error", VObj [("message", VStr "not found"); ("code", VNum 404)])]));
    reflexivity.
Defined.

(** C2, as stated, fails: for a success envelope [request] does not return
    the payload but the whole transport response. *)
Lemma request_success_is_not_payload :
  Get sample_success "data" =
    Normal (VObj [("success", VBool true); ("data", VObj [("id", VNum 1)])]) /\
  request (fun _ => Fulfilled sample_success) (VObj []) = Normal sample_success /\
  request (fun _ => Fulfilled sample_success) (VObj []) <> Normal (VObj [("id", VNum 1)]).
Proof. repeat split. discriminate. Qed.

(** C2, amended: for a success envelope [request] returns the transport
    response unchanged; the payload is its [data.data]. *)
Theorem request_success_envelope axios config res envelope payload :
  axios config = Fulfilled res ->
  Get res "data" = Normal envelope ->
  Get envelope "success" = Normal (VBool true) ->
  Get envelope "data" = Normal payload ->
  request axios config = Normal res /\ payload_of res = Normal payload.
Proof.
  intros Hax Hd Hs Hp. split.
  - exact (request_truthy _ _ _ _ _ Hax Hd Hs eq_refl).
  - unfold payload_of. rewrite Hd. exact Hp.
Qed.

Lemma request_success_envelope_witness :
  request (fun _ => Fulfilled sample_success) (VObj []) = Normal sample_success /\
  payload_of sample_success = Normal (VObj [("id", VNum 1)]).
Proof.
  apply (request_success_envelope (fun _ => Fulfilled sample_success) (VObj []) sample_success
           (VObj [("success", VBool true); ("data", VObj [("id", VNum 1)])]));
    reflexivity.
Defined.

(* ===================================================================== *)
(** ** Properties of [fetchData] *)
(* ===================================================================== *)

(** The synchronous part of an activation, whatever the record held. *)
Lemma fetchData_enter_returned (w : world) :
  fetchData_enter Returned w =
    (Normal None,
     {| record := {| Fetchable.data := VNull;
                     Fetchable.request := Fetchable.request (record w);
                     Fetchable.err := Fetchable.err (record w);
                     Fetchable.fetch := Fetchable.fetch (record w) |};
        console := console w;
        calls := S (calls w);
        suspended := S (suspended w) |}).
Proof. reflexivity. Qed.

Lemma fetchData_enter_threw (e : value) (w : world) :
  fetchData_enter (Threw e) w =
    (Normal (Some VUndefined),
     {| record := {| Fetchable.data := VNull;
                     Fetchable.request := Fetchable.request (record w);
                     Fetchable.err := e;
                     Fetchable.fetch := Some false |};
        console := console w;
        calls := S (calls w);
        suspended := suspended w |}).
Proof. reflexivity. Qed.

(** The [try] block never writes [err], and never throws past it without
    leaving the record's [err] as it found it. *)
Lemma fetchData_try_err NODE_ENV (res : value) (w : world) :
  Fetchable.err (record (snd (fetchData_try NODE_ENV res w))) = Fetchable.err (record w).
Proof.
  activation. by_environment NODE_ENV;
    destruct (ToBoolean res); simpl; try reflexivity;
    destruct (Get res "data") as [d|x]; simpl; try reflexivity;
    destruct (Get d "data"); reflexivity.
Qed.

Lemma fetchData_rejected NODE_ENV (e : value) (w : world) :
  fst (fetchData NODE_ENV (Settles (Rejected e)) w) = Fulfilled VUndefined /\
  shows (snd (fetchData NODE_ENV (Settles (Rejected e)) w)) (Some false) VNull e.
Proof. activation. auto. Qed.

Lemma fetchData_throws NODE_ENV (e : value) (w : world) :
  fst (fetchData NODE_ENV (Throws e) w) = Fulfilled VUndefined /\
  shows (snd (fetchData NODE_ENV (Throws e) w)) (Some false) VNull e.
Proof. activation. auto. Qed.

Lemma fetchData_falsy NODE_ENV (v : value) (w : world) :
  ToBoolean v = false ->
  fst (fetchData NODE_ENV (Settles (Fulfilled v)) w) = Fulfilled (VBool false) /\
  shows (snd (fetchData NODE_ENV (Settles (Fulfilled v)) w))
        (Some false) VNull (Fetchable.err (record w)).
Proof.
  intros Hv. activation. by_environment NODE_ENV; rewrite Hv; simpl; auto.
Qed.

Lemma fetchData_response NODE_ENV (res payload : value) (w : world) :
  ToBoolean res = true ->
  payload_of res = Normal payload ->
  fst (fetchData NODE_ENV (Settles (Fulfilled res)) w) = Fulfilled VUndefined /\
  shows (snd (fetchData NODE_ENV (Settles (Fulfilled res)) w))
        (Some true) payload (Fetchable.err (record w)).
Proof.
  intros Hv Hp. unfold payload_of in Hp.
  destruct (Get res "data") as [d|x] eqn:Hd; simpl in Hp; [|discriminate].
  activation. by_environment NODE_ENV; rewrite Hv; simpl;
    rewrite Hd; simpl; rewrite Hp; simpl; auto.
Qed.

Lemma fetchData_unreadable NODE_ENV (res x : value) (w : world) :
  ToBoolean res = true ->
  payload_of res = Throw x ->
  fst (fetchData NODE_ENV (Settles (Fulfilled res)) w) = Fulfilled VUndefined /\
  shows (snd (fetchData NODE_ENV (Settles (Fulfilled res)) w)) (Some false) VNull x.
Proof.
  intros Hv Hp. unfold payload_of in Hp.
  destruct (Get res "data") as [d|y] eqn:Hd; simpl in Hp.
  - activation. by_environment NODE_ENV; rewrite Hv; simpl;
      rewrite Hd; simpl; rewrite Hp; simpl; auto.
  - inversion Hp; subst y.
    activation. by_environment NODE_ENV; rewrite Hv; simpl;
      rewrite Hd; simpl; auto.
Qed.

(** The promise of [fetchData] is never rejected. *)
Lemma fetchData_fulfilled NODE_ENV (p : producer) (w : world) :
  exists v, fst (fetchData NODE_ENV p w) = Fulfilled v.
Proof.
  destruct p as [e|[v|e]].
  - exists VUndefined. apply fetchData_throws.
  - destruct (ToBoolean v) eqn:Hv.
    + destruct (payload_of v) as [payload|x] eqn:Hp.
      * exists VUndefined. now apply (fetchData_response NODE_ENV v payload).
      * exists VUndefined. now apply (fetchData_unreadable NODE_ENV v x).
    + exists (VBool false). now apply fetchData_falsy.
  - exists VUndefined. apply fetchData_rejected.
Qed.

(* ===================================================================== *)
(** ** Malformed envelopes *)
(* ===================================================================== *)

(** C1, as stated, fails: an envelope with [success] true and no [data] is
    not rejected; [request] returns the response, and the hook then records
    a success whose data is [undefined]. *)
Lemma request_accepts_missing_data :
  let envelope := VObj [("success", VBool true)] in
  let res := VObj [("data", envelope); ("status", VNum 200)] in
  let axios := fun _ : value => Fulfilled res in
  (exists props, envelope = VObj props /\ assoc "data" props = None) /\
  request axios (VObj []) = Normal res /\
  shows (snd (fetchData "production" (Settles (async_return (request axios (VObj [])))) idle))
        (Some true) VUndefined VNull.
Proof.
  simpl. split; [|split].
  - eexists. split; reflexivity.
  - reflexivity.
  - repeat split.
Qed.

(** C1, amended: an envelope without [success], or with [success] false
    and without [error], makes [request] fail: it throws and returns
    nothing, and a hook whose producer is that call does not crash but
    records the thrown value in [err] with [fetch] false and [data] null,
    its promise being fulfilled.  An envelope with [success] true and
    without [data] is not checked: [request] returns the response, and the
    hook records [fetch] true with [data] undefined. *)
Theorem request_malformed_envelope axios config res props :
  axios config = Fulfilled res ->
  Get res "data" = Normal (VObj props) ->
  ((assoc "success" props = None \/
    (assoc "success" props = Some (VBool false) /\ assoc "error" props = None)) ->
   exists e,
     request axios config = Throw e /\
     forall NODE_ENV w,
       fst (fetchData NODE_ENV (Settles (async_return (request axios config))) w)
         = Fulfilled VUndefined /\
       shows (snd (fetchData NODE_ENV (Settles (async_return (request axios config))) w))
             (Some false) VNull e) /\
  (assoc "success" props = Some (VBool true) ->
   assoc "data" props = None ->
   request axios config = Normal res /\
   forall NODE_ENV w,
     fst (fetchData NODE_ENV (Settles (async_return (request axios config))) w)
       = Fulfilled VUndefined /\
     shows (snd (fetchData NODE_ENV (Settles (async_return (request axios config))) w))
           (Some true) VUndefined (Fetchable.err (record w))).
Proof.
  intros Hax Hd. split.
  - intros Hbad.
    assert (Hs : exists success,
               Get (VObj props) "success" = Normal success /\ ToBoolean success = false).
    { destruct Hbad as [Hnone|[Hfalse _]]; simpl.
      - rewrite Hnone. eauto.
      - rewrite Hfalse. eauto. }
    destruct Hs as (success & Hs & Hf).
    destruct (request_falsy_throws _ _ _ _ _ Hax Hd Hs Hf) as [e He].
    exists e. split; [exact He|].
    intros NODE_ENV w. rewrite He. simpl async_return.
    apply fetchData_rejected.
  - intros Htrue Hnodata.
    assert (Hret : request axios config = Normal res).
    { apply (request_truthy _ _ _ (VObj props) (VBool true) Hax Hd); [|reflexivity].
      simpl. rewrite Htrue. reflexivity. }
    split; [exact Hret|].
    intros NODE_ENV w. rewrite Hret. simpl async_return.
    apply (fetchData_response NODE_ENV res VUndefined w).
    + destruct res; simpl in Hd; try discriminate; reflexivity.
    + unfold payload_of. rewrite Hd. simpl. rewrite Hnodata. reflexivity.
Qed.

Lemma request_malformed_envelope_witness :
  (let res := VObj [("data", VObj [("error", VNull)])] in
   exists e, request (fun _ => Fulfilled res) (VObj []) = Throw e /\
             shows (snd (fetchData "production"
                           (Settles (async_return (request (fun _ => Fulfilled res) (VObj []))))
                           idle))
                   (Some false) VNull e) /\
  (let res := VObj [("data", VObj [("success", VBool false)])] in
   exists e, request (fun _ => Fulfilled res) (VObj []) = Throw e /\
             shows (snd (fetchData "development"
                           (Settles (async_return (request (fun _ => Fulfilled res) (VObj []))))
                           idle))
                   (Some false) VNull e) /\
  (let res := VObj [("data", VObj [("success", VBool true)])] in
   request (fun _ => Fulfilled res) (VObj []) = Normal res /\
   shows (snd (fetchData "production"
                 (Settles (async_return (request (fun _ => Fulfilled res) (VObj []))))
                 idle))
         (Some true) VUndefined VNull).
Proof.
  split; [|split]; cbv zeta.
  - destruct (request_malformed_envelope
                (fun _ => Fulfilled (VObj [("data", VObj [("error", VNull)])])) (VObj [])
                _ [("error", VNull)] eq_refl eq_refl) as [H _].
    destruct (H (or_introl eq_refl)) as (e & He & Hrun).
    exists e. split; [exact He|]. exact (proj2 (Hrun "production" idle)).
  - destruct (request_malformed_envelope
                (fun _ => Fulfilled (VObj [("data", VObj [("success", VBool false)])])) (VObj [])
                _ [("success", VBool false)] eq_refl eq_refl) as [H _].
    destruct (H (or_intror (conj eq_refl eq_refl))) as (e & He & Hrun).
    exists e. split; [exact He|]. exact (proj2 (Hrun "development" idle)).
  - destruct (request_malformed_envelope
                (fun _ => Fulfilled (VObj [("data", VObj [("success", VBool true)])])) (VObj [])
                _ [("success", VBool true)] eq_refl eq_refl) as [_ H].
    destruct (H eq_refl eq_refl) as [Hret Hrun].
    split; [exact Hret|]. exact (proj2 (Hrun "production" idle)).
Defined.

(* ===================================================================== *)
(** ** The life cycle of one activation *)
(* ===================================================================== *)

(** On a constructed record, an activation run without interruption is the
    run of its two events. *)
Lemma run_activation NODE_ENV (o : settled) (w : world) :
  Fetchable.request (record w) = FetchData ->
  run NODE_ENV w [Invoke Returned; Settle o] =
    Some (snd (fetchData NODE_ENV (Settles o) w)).
Proof.
  intros Hreq. unfold run, step, call_request. rewrite Hreq.
  rewrite fetchData_enter_returned. cbn [snd suspended].
  unfold fetchData. rewrite fetchData_enter_returned. cbn [snd].
  destruct (fetchData_resume NODE_ENV o _). reflexivity.
Qed.

(** C3: when the producer throws [e], by throwing from the call or by
    rejecting its promise, the activation ends with [fetch] false, [data]
    null and [err] equal to [e], and the promise of [request] is fulfilled,
    not rejected. *)
Theorem request_producer_throws NODE_ENV (e : value) (w : world) :
  (fst (fetchData NODE_ENV (Throws e) w) = Fulfilled VUndefined /\
   shows (snd (fetchData NODE_ENV (Throws e) w)) (Some false) VNull e) /\
  (fst (fetchData NODE_ENV (Settles (Rejected e)) w) = Fulfilled VUndefined /\
   shows (snd (fetchData NODE_ENV (Settles (Rejected e)) w)) (Some false) VNull e).
Proof.
  split; [apply fetchData_throws | apply fetchData_rejected].
Qed.

(** C4, as stated, fails: an abort that follows a failed fetch leaves the
    error of that fetch in [err]. *)
Lemma abort_after_failure_keeps_err :
  let failed := snd (fetchData "production" (Settles (Rejected (VStr "offline"))) idle) in
  let aborted := snd (fetchData "production" (Settles (Fulfilled (VBool false))) failed) in
  shows aborted (Some false) VNull (VStr "offline") /\
  Fetchable.err (record aborted) <> VNull.
Proof. simpl. split; [repeat split | discriminate]. Qed.

(** C4, amended: when the producer returns the sentinel [false], the
    activation ends with [fetch] false and [data] null and leaves [err] as
    it was, so [err] is null on a record no fetch of which has failed, such
    as a newly constructed one; no error object is created. *)
Theorem request_abort_sentinel NODE_ENV (w : world) :
  fst (fetchData NODE_ENV (Settles (Fulfilled (VBool false))) w) = Fulfilled (VBool false) /\
  shows (snd (fetchData NODE_ENV (Settles (Fulfilled (VBool false))) w))
        (Some false) VNull (Fetchable.err (record w)) /\
  shows (snd (fetchData NODE_ENV (Settles (Fulfilled (VBool false))) idle))
        (Some false) VNull VNull /\
  shows (snd (fetchData_resume NODE_ENV (Fulfilled (VBool false)) (hookFetch Returned None)))
        (Some false) VNull VNull.
Proof.
  destruct (fetchData_falsy NODE_ENV (VBool false) w eq_refl) as [H1 H2].
  split; [exact H1|]. split; [exact H2|]. split.
  - apply (fetchData_falsy NODE_ENV (VBool false) idle eq_refl).
  - activation. by_environment NODE_ENV; auto.
Qed.

(** C10: the abort test is falsiness: for every falsy resolved value the
    activation takes the abort path, with [fetch] false, [err] untouched
    and [data] left at its reset value. *)
Theorem request_falsy_is_abort NODE_ENV (v : value) (w : world) :
  ToBoolean v = false ->
  fst (fetchData NODE_ENV (Settles (Fulfilled v)) w) = Fulfilled (VBool false) /\
  shows (snd (fetchData NODE_ENV (Settles (Fulfilled v)) w))
        (Some false) VNull (Fetchable.err (record w)).
Proof. apply fetchData_falsy. Qed.

Lemma request_falsy_is_abort_witness :
  Forall (fun v =>
            ToBoolean v = false /\
            shows (snd (fetchData "production" (Settles (Fulfilled v)) idle))
                  (Some false) VNull VNull)
         [VNull; VUndefined; VNum 0; VStr ""; VNaN; VBool false].
Proof.
  assert (H : forall v, ToBoolean v = false ->
                ToBoolean v = false /\
                shows (snd (fetchData "production" (Settles (Fulfilled v)) idle))
                      (Some false) VNull VNull).
  { intros v Hv. split; [exact Hv|].
    exact (proj2 (request_falsy_is_abort "production" v idle Hv)). }
  repeat (apply Forall_cons; [apply H; reflexivity|]).
  apply Forall_nil.
Defined.

(* ===================================================================== *)
(** ** Successful fetches and the [err] field *)
(* ===================================================================== *)

Lemma is_response_payload (res : value) :
  is_response res = true ->
  ToBoolean res = true /\ exists payload, payload_of res = Normal payload.
Proof.
  unfold is_response. intros H. apply andb_true_iff in H. destruct H as [Ht Hp].
  split; [exact Ht|]. destruct (payload_of res); [eauto | discriminate].
Qed.

(** A successful event leaves [err] alone, also between other activations. *)
Lemma step_successful_err NODE_ENV (ev : event) (w w' : world) :
  successful ev = true ->
  step NODE_ENV w ev = Some w' ->
  Fetchable.err (record w') = Fetchable.err (record w).
Proof.
  destruct ev as [[e|]|[res|e]]; simpl; try discriminate.
  - intros _ H. inversion H; subst w'. unfold call_request.
    destruct (Fetchable.request (record w)); reflexivity.
  - intros Hres H. destruct (suspended w); [discriminate|].
    inversion H; subst w'. clear H.
    destruct (is_response_payload res Hres) as (Ht & payload & Hp).
    unfold payload_of in Hp.
    destruct (Get res "data") as [d|x] eqn:Hd; simpl in Hp; [|discriminate].
    activation. by_environment NODE_ENV; rewrite Ht; simpl;
      rewrite Hd; simpl; rewrite Hp; reflexivity.
Qed.

Lemma run_successful_err NODE_ENV (evs : list event) :
  forall w w',
    forallb successful evs = true ->
    run NODE_ENV w evs = Some w' ->
    Fetchable.err (record w') = Fetchable.err (record w).
Proof.
  induction evs as [|ev rest IH]; simpl; intros w w' Hall Hrun.
  - inversion Hrun. reflexivity.
  - apply andb_true_iff in Hall. destruct Hall as [Hev Hrest].
    destruct (step NODE_ENV w ev) as [w1|] eqn:Hstep; [|discriminate].
    rewrite (IH w1 w' Hrest Hrun).
    exact (step_successful_err NODE_ENV ev w w1 Hev Hstep).
Qed.

Lemma hookFetch_err (c : call) (auto : option bool) :
  c = Returned \/ auto = Some false ->
  Fetchable.err (record (hookFetch c auto)) = VNull.
Proof.
  intros [->| ->]; [destruct auto as [[|]|]|]; reflexivity.
Qed.

(** C5: when the producer resolves with a response (a truthy value whose
    [data] is an envelope), the activation ends with [fetch] true and [data]
    equal to the envelope's payload; and on a record whose fetches have all
    resolved with responses since construction, [err] is null. *)
Theorem request_producer_resolves NODE_ENV (res envelope payload : value) :
  ToBoolean res = true ->
  Get res "data" = Normal envelope ->
  Get envelope "data" = Normal payload ->
  (forall w,
     fst (fetchData NODE_ENV (Settles (Fulfilled res)) w) = Fulfilled VUndefined /\
     shows (snd (fetchData NODE_ENV (Settles (Fulfilled res)) w))
           (Some true) payload (Fetchable.err (record w))) /\
  (forall auto evs w,
     forallb successful evs = true ->
     run NODE_ENV (hookFetch Returned auto) evs = Some w ->
     shows (snd (fetchData NODE_ENV (Settles (Fulfilled res)) w))
           (Some true) payload VNull).
Proof.
  intros Ht Hd Hp.
  assert (Hpay : payload_of res = Normal payload)
    by (unfold payload_of; rewrite Hd; exact Hp).
  split.
  - intros w. exact (fetchData_response NODE_ENV res payload w Ht Hpay).
  - intros auto evs w Hall Hrun.
    destruct (fetchData_response NODE_ENV res payload w Ht Hpay) as [_ Hshows].
    rewrite (run_successful_err NODE_ENV evs _ w Hall Hrun) in Hshows.
    rewrite (hookFetch_err Returned auto (or_introl eq_refl)) in Hshows.
    exact Hshows.
Qed.

Lemma request_producer_resolves_witness :
  shows (snd (fetchData "development" (Settles (Fulfilled sample_success)) idle))
        (Some true) (VObj [("id", VNum 1)]) VNull /\
  shows (snd (fetchData "development" (Settles (Fulfilled sample_success))
                (snd (fetchData "development" (Settles (Fulfilled sample_success))
                        (hookFetch Returned (Some false))))))
        (Some true) (VObj [("id", VNum 1)]) VNull.
Proof.
  destruct (request_producer_resolves "development" sample_success
              (VObj [("success", VBool true); ("data", VObj [("id", VNum 1)])])
              (VObj [("id", VNum 1)]) eq_refl eq_refl eq_refl) as [Hone Hall].
  split.
  - exact (proj2 (Hone idle)).
  - apply (Hall (Some false) [Invoke Returned; Settle (Fulfilled sample_success)]);
      reflexivity.
Defined.

(** C9: nothing but the [catch] block writes [err]: the [try] block leaves
    it as it was, and so does an abort; hence a fetch that succeeds after a
    failed one ends with [fetch] true, the new [data], and the old error
    still in [err]. *)
Theorem request_keeps_stale_err NODE_ENV (e res payload : value) (w : world) :
  ToBoolean res = true ->
  payload_of res = Normal payload ->
  (forall v w', Fetchable.err (record (snd (fetchData_try NODE_ENV v w')))
                = Fetchable.err (record w')) /\
  Fetchable.err (record (snd (fetchData NODE_ENV (Settles (Fulfilled (VBool false))) w)))
    = Fetchable.err (record w) /\
  Fetchable.err (record (snd (fetchData NODE_ENV (Settles (Fulfilled res)) w)))
    = Fetchable.err (record w) /\
  shows (snd (fetchData NODE_ENV (Settles (Fulfilled res))
                (snd (fetchData NODE_ENV (Settles (Rejected e)) w))))
        (Some true) payload e.
Proof.
  intros Ht Hp. split; [|split; [|split]].
  - intros v w'. apply fetchData_try_err.
  - apply (fetchData_falsy NODE_ENV (VBool false) w eq_refl).
  - apply (fetchData_response NODE_ENV res payload w Ht Hp).
  - destruct (fetchData_rejected NODE_ENV e w) as [_ (_ & _ & Herr)].
    destruct (fetchData_response NODE_ENV res payload
                (snd (fetchData NODE_ENV (Settles (Rejected e)) w)) Ht Hp) as [_ H].
    rewrite Herr in H. exact H.
Qed.

Lemma request_keeps_stale_err_witness :
  shows (snd (fetchData "production" (Settles (Fulfilled sample_success))
                (snd (fetchData "production" (Settles (Rejected (VStr "offline"))) idle))))
        (Some true) (VObj [("id", VNum 1)]) (VStr "offline").
Proof.
  exact (proj2 (proj2 (proj2
           (request_keeps_stale_err "production" (VStr "offline") sample_success
              (VObj [("id", VNum 1)]) idle eq_refl eq_refl)))).
Defined.

(* ===================================================================== *)
(** ** The reset of [data] and construction *)
(* ===================================================================== *)

(** C6: whatever the record held and whatever the call of the producer
    does, [data] is null when the synchronous part of an activation ends;
    an activation suspended at its [await] has changed nothing else. *)
Theorem request_resets_data (c : call) (w : world) :
  Fetchable.data (record (snd (fetchData_enter c w))) = VNull /\
  fetchData_enter Returned w =
    (Normal None,
     {| record := {| Fetchable.data := VNull;
                     Fetchable.request := Fetchable.request (record w);
                     Fetchable.err := Fetchable.err (record w);
                     Fetchable.fetch := Fetchable.fetch (record w) |};
        console := console w;
        calls := S (calls w);
        suspended := S (suspended w) |}).
Proof. split; [destruct c|]; reflexivity. Qed.

(** C8: constructed with [auto] true (also by default), the hook calls the
    producer exactly once and does not wait for it: construction returns
    with one activation suspended, [request] bound to [fetchData], [data]
    and [err] null and [fetch] at its default null.  Without [auto] the
    producer is not called. *)
Theorem hookFetch_auto_start (c : call) :
  calls (hookFetch c (Some true)) = 1 /\
  Fetchable.data (record (hookFetch c (Some true))) = VNull /\
  Fetchable.request (record (hookFetch c (Some true))) = FetchData /\
  hookFetch Returned (Some true) =
    {| record := {| Fetchable.data := VNull; Fetchable.request := FetchData;
                    Fetchable.err := VNull; Fetchable.fetch := None |};
       console := []; calls := 1; suspended := 1 |} /\
  hookFetch c None = hookFetch c (Some true) /\
  calls (hookFetch c (Some false)) = 0.
Proof. destruct c; repeat split. Qed.

(* ===================================================================== *)
(** ** Further properties of [request] and [BackendFetchError] *)
(* ===================================================================== *)

(** X1: whatever [request] returns is the very response the transport
    delivered, and it returns only when the envelope's [success] is truthy. *)
Theorem request_returns_transport_response axios config (v : value) :
  request axios config = Normal v ->
  axios config = Fulfilled v /\
  exists data success,
    Get v "data" = Normal data /\
    Get data "success" = Normal success /\
    ToBoolean success = true.
Proof.
  unfold request.
  destruct (axios config) as [res|reason]; simpl; [|discriminate].
  destruct (Get res "data") as [data|x] eqn:Hd; simpl; [|discriminate].
  destruct (Get data "success") as [success|x] eqn:Hs; simpl; [|discriminate].
  destruct (ToBoolean success) eqn:Ht; simpl.
  - intros H. inversion H; subst v. split; [reflexivity|].
    exists data, success. rewrite Hd. auto.
  - destruct (Get data "error") as [error|x]; simpl; [|discriminate].
    destruct (BackendFetchError error res); simpl; discriminate.
Qed.

Lemma request_returns_transport_response_witness :
  (fun _ : value => Fulfilled sample_success) (VObj []) = Fulfilled sample_success /\
  exists data success,
    Get sample_success "data" = Normal data /\
    Get data "success" = Normal success /\
    ToBoolean success = true.
Proof.
  exact (request_returns_transport_response
           (fun _ => Fulfilled sample_success) (VObj []) sample_success eq_refl).
Defined.

(** X2: the test on [success] is truthiness: any falsy discriminant, a missing
    one included, with a described error makes [request] throw the
    [BackendFetchError] of that description. *)
Theorem request_falsy_discriminant axios config res envelope success error message :
  axios config = Fulfilled res ->
  Get res "data" = Normal envelope ->
  Get envelope "success" = Normal success ->
  ToBoolean success = false ->
  Get envelope "error" = Normal error ->
  Get error "message" = Normal (VStr message) ->
  request axios config =
    Throw (VError "BackendFetchError" message [("error", error); ("res", res)]).
Proof.
  intros Hax Hd Hs Hf He Hm.
  rewrite (request_falsy _ _ _ _ _ _ Hax Hd Hs Hf He).
  unfold BackendFetchError. rewrite Hm. reflexivity.
Qed.

Lemma request_falsy_discriminant_witness :
  let error := VObj [("message", VStr "gone")] in
  let res := VObj [("data", VObj [("error", error)])] in
  request (fun _ => Fulfilled res) (VObj []) =
    Throw (VError "BackendFetchError" "gone" [("error", error); ("res", res)]).
Proof.
  exact (request_falsy_discriminant
           (fun _ => Fulfilled (VObj [("data", VObj [("error", VObj [("message", VStr "gone")])])]))
           (VObj []) _ (VObj [("error", VObj [("message", VStr "gone")])]) VUndefined
           (VObj [("message", VStr "gone")]) "gone"
           eq_refl eq_refl eq_refl eq_refl eq_refl eq_refl).
Defined.

(** X3: a rejected transport call is not wrapped: [request] throws the reason
    as it is, and a hook fed by it records that reason in [err]. *)
Theorem request_transport_rejection axios config (reason : value) NODE_ENV (w : world) :
  axios config = Rejected reason ->
  request axios config = Throw reason /\
  shows (snd (fetchData NODE_ENV (Settles (async_return (request axios config))) w))
        (Some false) VNull reason.
Proof.
  intros Hax. rewrite (request_transport_failure _ _ _ Hax). split; [reflexivity|].
  apply fetchData_rejected.
Qed.

Lemma request_transport_rejection_witness :
  let axios := fun _ : value => Rejected (VError "AxiosError" "Network Error" []) in
  request axios (VObj []) = Throw (VError "AxiosError" "Network Error" []) /\
  shows (snd (fetchData "production" (Settles (async_return (request axios (VObj [])))) idle))
        (Some false) VNull (VError "AxiosError" "Network Error" []).
Proof.
  exact (request_transport_rejection
           (fun _ => Rejected (VError "AxiosError" "Network Error" [])) (VObj [])
           (VError "AxiosError" "Network Error" []) "production" idle eq_refl).
Defined.

(** X4: a response whose body is not an object (a string, a number, nothing at
    all) makes [request] throw a [TypeError], never a [BackendFetchError]. *)
Theorem request_body_not_object axios config (res body : value) :
  axios config = Fulfilled res ->
  Get res "data" = Normal body ->
  is_object body = false ->
  exists message, request axios config = Throw (TypeError message).
Proof.
  intros Hax Hd Hobj. unfold request. rewrite Hax. simpl. rewrite Hd. simpl.
  destruct body; try discriminate; simpl; rewrite ?Hd; simpl; eauto.
Qed.

Lemma request_body_not_object_witness :
  exists message,
    request (fun _ => Fulfilled (VObj [("data", VStr "<html>Bad Gateway</html>")])) (VObj [])
    = Throw (TypeError message).
Proof.
  exact (request_body_not_object
           (fun _ => Fulfilled (VObj [("data", VStr "<html>Bad Gateway</html>")])) (VObj [])
           _ (VStr "<html>Bad Gateway</html>") eq_refl eq_refl eq_refl).
Defined.

(** X5: a constructed [BackendFetchError] gives back what it was built from:
    its [error] and [res] are the arguments, its name is the class's, its
    message is the description's, empty when the description has none. *)
Theorem BackendFetchError_fields (error res e : value) :
  BackendFetchError error res = Normal e ->
  Get e "error" = Normal error /\
  Get e "res" = Normal res /\
  Get e "name" = Normal (VStr "BackendFetchError") /\
  (forall message, Get error "message" = Normal (VStr message) ->
                   Get e "message" = Normal (VStr message)) /\
  (Get error "message" = Normal VUndefined -> Get e "message" = Normal (VStr "")).
Proof.
  unfold BackendFetchError.
  destruct (Get error "message") as [m|x]; simpl; [|discriminate].
  destruct (Error_message m) as [message|x] eqn:Hm; simpl; [|discriminate].
  intros H. inversion H; subst e. clear H. simpl.
  split; [reflexivity|]. split; [reflexivity|]. split; [reflexivity|]. split.
  - intros message' Heq. inversion Heq; subst m. simpl in Hm. congruence.
  - intros Heq. inversion Heq; subst m. simpl in Hm. congruence.
Qed.

Lemma BackendFetchError_fields_witness :
  let error := VObj [("code", VNum 500)] in
  exists e,
    BackendFetchError error VUndefined = Normal e /\
    Get e "error" = Normal error /\
    Get e "res" = Normal VUndefined /\
    Get e "message" = Normal (VStr "").
Proof.
  cbv zeta. eexists. split; [reflexivity|].
  destruct (BackendFetchError_fields (VObj [("code", VNum 500)]) VUndefined _ eq_refl)
    as (He & Hr & _ & _ & Hm).
  split; [exact He|]. split; [exact Hr|]. exact (Hm eq_refl).
Defined.

(** X6: the constructor itself fails on a description that is [undefined] or
    [null], with the [TypeError] of reading its [message]. *)
Theorem BackendFetchError_nullish (error res : value) :
  error = VUndefined \/ error = VNull ->
  exists message, BackendFetchError error res = Throw (TypeError message).
Proof. intros [->| ->]; eexists; reflexivity. Qed.

Lemma BackendFetchError_nullish_witness :
  exists message, BackendFetchError VUndefined sample_failure = Throw (TypeError message).
Proof.
  exact (BackendFetchError_nullish VUndefined sample_failure (or_introl eq_refl)).
Defined.

(** X7: the constructor fails in no other way than on such a description or on
    a [message] that is itself an object; a description that is an object
    with a primitive or missing [message] always yields an error. *)
Theorem BackendFetchError_throws_only (error res x : value) :
  BackendFetchError error res = Throw x ->
  error = VUndefined \/ error = VNull \/
  exists m, Get error "message" = Normal m /\ is_object m = true.
Proof.
  unfold BackendFetchError.
  destruct (Get error "message") as [m|y] eqn:Hm; simpl.
  - intros H. right. right. exists m. split; [reflexivity|].
    destruct m as [| |[|]| | | | |]; simpl in H; try discriminate; reflexivity.
  - intros _. destruct error; simpl in Hm; try discriminate; auto.
Qed.

Lemma BackendFetchError_throws_only_witness :
  let error := VObj [("message", VObj [("toString", VNull)])] in
  error = VUndefined \/ error = VNull \/
  exists m, Get error "message" = Normal m /\ is_object m = true.
Proof.
  exact (BackendFetchError_throws_only
           (VObj [("message", VObj [("toString", VNull)])]) VUndefined
           (TypeError "Cannot convert object to primitive value") eq_refl).
Defined.

(* ===================================================================== *)
(** ** Further properties of one activation *)
(* ===================================================================== *)

Lemma Get_throws_TypeError (v : value) (k : string) (x : value) :
  Get v k = Throw x -> exists message, x = TypeError message.
Proof. destruct v; simpl; intros H; inversion H; eauto. Qed.

(** X8: the promise of [request] tells an abort from everything else: it
    resolves with [false] when the producer resolved with a falsy value and
    with [undefined] in every other case, failures included. *)
Theorem fetchData_resolution NODE_ENV (p : producer) (w : world) :
  fst (fetchData NODE_ENV p w) = Fulfilled (resolution p).
Proof.
  destruct p as [e|[res|e]]; simpl resolution.
  - apply fetchData_throws.
  - destruct (ToBoolean res) eqn:Ht.
    + destruct (payload_of res) as [payload|x] eqn:Hp.
      * now apply (fetchData_response NODE_ENV res payload).
      * now apply (fetchData_unreadable NODE_ENV res x).
    + now apply fetchData_falsy.
  - apply fetchData_rejected.
Qed.

(** X9: a resolved value that is truthy but carries no envelope (the payload
    itself, [true], an object without [data]) is recorded as a failure.  The
    [try] block has already set [fetch] to true when the read of
    [res.data.data] throws the [TypeError] of reading [data] of [undefined];
    the [catch] block then leaves [fetch] false, [data] null and that
    [TypeError] in [err]. *)
Theorem fetchData_no_envelope NODE_ENV (res : value) (w : world) :
  ToBoolean res = true ->
  Get res "data" = Normal VUndefined ->
  fst (fetchData_try NODE_ENV res w)
    = Throw (TypeError "Cannot read properties of undefined (reading 'data')") /\
  Fetchable.fetch (record (snd (fetchData_try NODE_ENV res w))) = Some true /\
  Fetchable.data (record (snd (fetchData_try NODE_ENV res w))) = Fetchable.data (record w) /\
  shows (snd (fetchData NODE_ENV (Settles (Fulfilled res)) w))
        (Some false) VNull
        (TypeError "Cannot read properties of undefined (reading 'data')").
Proof.
  intros Ht Hd. split; [|split; [|split]].
  - activation. by_environment NODE_ENV; rewrite Ht; simpl; rewrite Hd; reflexivity.
  - activation. by_environment NODE_ENV; rewrite Ht; simpl; rewrite Hd; reflexivity.
  - activation. by_environment NODE_ENV; rewrite Ht; simpl; rewrite Hd; reflexivity.
  - apply (fetchData_unreadable NODE_ENV res); [exact Ht|].
    unfold payload_of. rewrite Hd. reflexivity.
Qed.

Lemma fetchData_no_envelope_witness :
  Forall (fun res =>
            Fetchable.fetch (record (snd (fetchData_try "production" res idle))) = Some true /\
            shows (snd (fetchData "production" (Settles (Fulfilled res)) idle))
                  (Some false) VNull
                  (TypeError "Cannot read properties of undefined (reading 'data')"))
         [VBool true; VNum 7; VStr "ok"; VObj [("id", VNum 1)]].
Proof.
  assert (H : forall res,
             ToBoolean res = true -> Get res "data" = Normal VUndefined ->
             Fetchable.fetch (record (snd (fetchData_try "production" res idle))) = Some true /\
             shows (snd (fetchData "production" (Settles (Fulfilled res)) idle))
                   (Some false) VNull
                   (TypeError "Cannot read properties of undefined (reading 'data')")).
  { intros res Ht Hd.
    destruct (fetchData_no_envelope "production" res idle Ht Hd) as (_ & Hf & _ & Hs).
    split; [exact Hf | exact Hs]. }
  repeat (apply Forall_cons; [apply H; reflexivity|]).
  apply Forall_nil.
Defined.

(** X10: a finished activation has one of two shapes: [fetch] true with the
    payload of the resolved response in [data] and [err] as it was, or
    [fetch] false with [data] null; [fetch] is never left null. *)
Theorem fetchData_outcome NODE_ENV (p : producer) (w : world) :
  (exists res payload,
      p = Settles (Fulfilled res) /\ ToBoolean res = true /\
      payload_of res = Normal payload /\
      shows (snd (fetchData NODE_ENV p w)) (Some true) payload (Fetchable.err (record w))) \/
  (failure p <> None \/ (exists v, p = Settles (Fulfilled v) /\ ToBoolean v = false)) /\
  Fetchable.fetch (record (snd (fetchData NODE_ENV p w))) = Some false /\
  Fetchable.data (record (snd (fetchData NODE_ENV p w))) = VNull.
Proof.
  destruct p as [e|[res|e]].
  - right. destruct (fetchData_throws NODE_ENV e w) as [_ (Hf & Hd & _)].
    split; [left; discriminate|auto].
  - destruct (ToBoolean res) eqn:Ht.
    + destruct (payload_of res) as [payload|x] eqn:Hp.
      * left. exists res, payload. repeat split; auto;
          apply (fetchData_response NODE_ENV res payload w Ht Hp).
      * right. destruct (fetchData_unreadable NODE_ENV res x w Ht Hp) as [_ (Hf & Hd & _)].
        split; [left; simpl; rewrite Ht, Hp; discriminate|auto].
    + right. destruct (fetchData_falsy NODE_ENV res w Ht) as [_ (Hf & Hd & _)].
      split; [right; eauto|auto].
  - right. destruct (fetchData_rejected NODE_ENV e w) as [_ (Hf & Hd & _)].
    split; [left; discriminate|auto].
Qed.

(** X11: what a finished activation leaves in [fetch] and [data] does not depend
    on what the record held before. *)
Theorem fetchData_overwrites NODE_ENV (p : producer) (w1 w2 : world) :
  Fetchable.fetch (record (snd (fetchData NODE_ENV p w1)))
    = Fetchable.fetch (record (snd (fetchData NODE_ENV p w2))) /\
  Fetchable.data (record (snd (fetchData NODE_ENV p w1)))
    = Fetchable.data (record (snd (fetchData NODE_ENV p w2))).
Proof.
  destruct p as [e|[res|e]].
  - split; reflexivity.
  - resumption NODE_ENV res; split; reflexivity.
  - split; reflexivity.
Qed.

(** An activation writes [err] exactly when it fails. *)
Lemma fetchData_err NODE_ENV (p : producer) (w : world) :
  Fetchable.err (record (snd (fetchData NODE_ENV p w))) =
    match failure p with
    | Some x => x
    | None => Fetchable.err (record w)
    end.
Proof.
  destruct p as [e|[res|e]]; simpl failure.
  - reflexivity.
  - destruct (ToBoolean res) eqn:Ht.
    + destruct (payload_of res) as [payload|x] eqn:Hp.
      * apply (fetchData_response NODE_ENV res payload w Ht Hp).
      * apply (fetchData_unreadable NODE_ENV res x w Ht Hp).
    + apply (fetchData_falsy NODE_ENV res w Ht).
  - reflexivity.
Qed.

(** X12: repeating an activation with the same behaviour of the producer
    changes nothing in the record. *)
Theorem fetchData_idempotent NODE_ENV (p : producer) (w : world) :
  record (snd (fetchData NODE_ENV p (snd (fetchData NODE_ENV p w))))
    = record (snd (fetchData NODE_ENV p w)).
Proof.
  destruct p as [e|[res|e]].
  - reflexivity.
  - resumption NODE_ENV res; reflexivity.
  - reflexivity.
Qed.

(** X13: over requests made one after the other, [err] holds the failure of the
    latest failed one, however many succeeded or aborted since; it is what
    it was when none has failed. *)
Theorem fetches_err NODE_ENV (ps : list producer) :
  forall w,
    Fetchable.err (record (fetches NODE_ENV ps w))
      = last_failure ps (Fetchable.err (record w)).
Proof.
  unfold fetches, last_failure.
  induction ps as [|p rest IH]; intros w; simpl.
  - reflexivity.
  - rewrite IH. rewrite fetchData_err. reflexivity.
Qed.

(* ===================================================================== *)
(** ** Invariants of the runs of a hook *)
(* ===================================================================== *)

(** A property kept by every admitted step is kept by every run. *)
Lemma run_invariant NODE_ENV (admitted : event -> bool) (P : world -> Prop) :
  (forall w ev w', admitted ev = true -> P w -> step NODE_ENV w ev = Some w' -> P w') ->
  forall evs w w',
    forallb admitted evs = true -> P w -> run NODE_ENV w evs = Some w' -> P w'.
Proof.
  intros Hstep. induction evs as [|ev rest IH]; simpl; intros w w' Hall HP Hrun.
  - inversion Hrun; subst w'. exact HP.
  - apply andb_true_iff in Hall. destruct Hall as [Hev Hrest].
    destruct (step NODE_ENV w ev) as [w1|] eqn:Hs; [|discriminate].
    exact (IH w1 w' Hrest (Hstep w ev w1 Hev HP Hs) Hrun).
Qed.

Lemma forallb_any {A} (l : list A) : forallb (fun _ => true) l = true.
Proof. induction l; simpl; auto. Qed.

Lemma step_request NODE_ENV (w : world) (ev : event) (w' : world) :
  step NODE_ENV w ev = Some w' ->
  Fetchable.request (record w') = Fetchable.request (record w).
Proof.
  destruct ev as [c|o]; simpl.
  - intros H. inversion H; subst w'. unfold call_request.
    destruct (Fetchable.request (record w)) eqn:E; simpl; [exact E|].
    destruct c; exact E.
  - destruct (suspended w); [discriminate|].
    intros H. inversion H; subst w'. clear H.
    destruct o as [res|e]; [resumption NODE_ENV res|]; reflexivity.
Qed.

Lemma step_settle_fetch NODE_ENV (o : settled) (w w' : world) :
  step NODE_ENV w (Settle o) = Some w' ->
  Fetchable.fetch (record w') = Some (settlement o).
Proof.
  simpl. destruct (suspended w); [discriminate|].
  intros H. inversion H; subst w'. clear H.
  destruct o as [res|e]; [|reflexivity].
  unfold settlement, is_response, payload_of.
  resumption NODE_ENV res; reflexivity.
Qed.

(** X14: once bound by construction, the [request] field is never written
    again: after every run it is still [fetchData]. *)
Theorem hookFetch_request_stable NODE_ENV (c : call) (auto : option bool)
        (evs : list event) (w : world) :
  run NODE_ENV (hookFetch c auto) evs = Some w ->
  Fetchable.request (record w) = FetchData.
Proof.
  apply (run_invariant NODE_ENV (fun _ => true)
           (fun w => Fetchable.request (record w) = FetchData)).
  - intros w0 ev w1 _ H0 Hs. rewrite (step_request NODE_ENV w0 ev w1 Hs). exact H0.
  - apply forallb_any.
  - destruct c, auto as [[|]|]; reflexivity.
Qed.

Lemma hookFetch_request_stable_witness :
  Fetchable.request
    (record (snd (fetchData "production" (Settles (Rejected VNull))
                    (hookFetch Returned (Some false))))) = FetchData.
Proof.
  apply (hookFetch_request_stable "production" Returned (Some false)
           [Invoke Returned; Settle (Rejected VNull)]).
  reflexivity.
Defined.

(** X15: whatever else is pending, the settlement of an awaited promise decides
    [fetch]: true for a response, false for anything else.  [data] is
    written only for a response and otherwise stays as the settlement found
    it, which under overlapping requests may be another request's payload. *)
Theorem settle_decides_fetch NODE_ENV (o : settled) (w w' : world) :
  step NODE_ENV w (Settle o) = Some w' ->
  Fetchable.fetch (record w') = Some (settlement o) /\
  (settlement o = false -> Fetchable.data (record w') = Fetchable.data (record w)) /\
  (forall res, o = Fulfilled res -> settlement o = true ->
               payload_of res = Normal (Fetchable.data (record w'))).
Proof.
  intros Hs. split; [exact (step_settle_fetch NODE_ENV o w w' Hs)|].
  simpl in Hs. destruct (suspended w); [discriminate|].
  inversion Hs; subst w'. clear Hs.
  destruct o as [res|e].
  - unfold settlement, is_response, payload_of. split.
    + resumption NODE_ENV res; intros H; try discriminate; reflexivity.
    + intros res' Heq. inversion Heq; subst res'. clear Heq.
      resumption NODE_ENV res; intros H; try discriminate; reflexivity.
  - split; [reflexivity | discriminate].
Qed.

Lemma settle_decides_fetch_witness :
  Fetchable.fetch
    (record (snd (fetchData_resume "production" (Rejected (VStr "offline"))
                    (hookFetch Returned None)))) = Some false.
Proof.
  exact (proj1 (settle_decides_fetch "production" (Rejected (VStr "offline"))
                  (hookFetch Returned None) _ eq_refl)).
Defined.

(** X16: a new request does not put [fetch] back to null: once a fetch has
    finished, [fetch] stays a boolean through every later event, also while
    the next fetch is pending. *)
Theorem fetch_never_null_again NODE_ENV (evs : list event) (w w' : world) :
  Fetchable.fetch (record w) <> None ->
  run NODE_ENV w evs = Some w' ->
  Fetchable.fetch (record w') <> None.
Proof.
  intros H0 Hrun.
  refine (run_invariant NODE_ENV (fun _ => true)
            (fun w => Fetchable.fetch (record w) <> None)
            _ evs w w' (forallb_any evs) H0 Hrun).
  intros w0 ev w1 _ HP Hs. destruct ev as [c|o].
  - simpl in Hs. inversion Hs; subst w1. unfold call_request.
    destruct (Fetchable.request (record w0)); [exact HP|].
    destruct c; [discriminate | exact HP].
  - rewrite (step_settle_fetch NODE_ENV o w0 w1 Hs). discriminate.
Qed.

Lemma fetch_never_null_again_witness :
  Fetchable.fetch
    (record (snd (fetchData_enter Returned
                    (snd (fetchData "production" (Settles (Fulfilled sample_success)) idle)))))
  <> None.
Proof.
  apply (fetch_never_null_again "production" [Invoke Returned]
           (snd (fetchData "production" (Settles (Fulfilled sample_success)) idle))).
  - discriminate.
  - reflexivity.
Defined.

Lemma run_calls NODE_ENV (evs : list event) :
  forall w w',
    Fetchable.request (record w) = FetchData ->
    run NODE_ENV w evs = Some w' ->
    calls w' = calls w + invocations evs.
Proof.
  unfold invocations.
  induction evs as [|ev rest IH]; simpl; intros w w' Hreq Hrun.
  - inversion Hrun. lia.
  - destruct (step NODE_ENV w ev) as [w1|] eqn:Hs; [|discriminate].
    assert (Hreq1 : Fetchable.request (record w1) = FetchData)
      by (rewrite (step_request NODE_ENV w ev w1 Hs); exact Hreq).
    rewrite (IH w1 w' Hreq1 Hrun).
    destruct ev as [c|o]; simpl in Hs |- *.
    + inversion Hs; subst w1. unfold call_request. rewrite Hreq.
      destruct c; simpl; lia.
    + destruct (suspended w); [discriminate|].
      inversion Hs; subst w1.
      destruct o as [res|e]; [resumption NODE_ENV res|simpl]; lia.
Qed.

(** X17: the hook never retries and never skips: over any run the producer has
    been called once for each call of [request], and once more when the
    hook was constructed with [auto]. *)
Theorem producer_called_once_per_request NODE_ENV (c : call) (auto : option bool)
        (evs : list event) (w : world) :
  run NODE_ENV (hookFetch c auto) evs = Some w ->
  calls w =
    (if match auto with Some b => b | None => true end then 1 else 0) + invocations evs.
Proof.
  intros Hrun.
  rewrite (run_calls NODE_ENV evs (hookFetch c auto) w); [|now destruct c, auto as [[|]|]|exact Hrun].
  destruct c, auto as [[|]|]; reflexivity.
Qed.

Lemma producer_called_once_per_request_witness :
  exists w,
    run "production" (hookFetch Returned None)
        [Settle (Rejected (VStr "offline")); Invoke Returned; Invoke (Threw VNull)] = Some w /\
    calls w = 3.
Proof.
  eexists. split; [reflexivity|].
  exact (producer_called_once_per_request "production" Returned None
           [Settle (Rejected (VStr "offline")); Invoke Returned; Invoke (Threw VNull)]
           _ eq_refl).
Defined.

(** X18: outside development the hook never writes to the console; in
    development it writes one line for each promise that is fulfilled, the
    tagged label followed by the resolved value, and none for a rejection. *)
Theorem console_of_run NODE_ENV (evs : list event) :
  forall w w',
    run NODE_ENV w evs = Some w' ->
    console w' =
      (console w ++ (if String.eqb NODE_ENV "development" then logged evs else []))%list.
Proof.
  unfold logged.
  induction evs as [|ev rest IH]; simpl; intros w w' Hrun.
  - inversion Hrun. destruct (String.eqb NODE_ENV "development"); now rewrite app_nil_r.
  - destruct (step NODE_ENV w ev) as [w1|] eqn:Hs; [|discriminate].
    rewrite (IH w1 w' Hrun). clear IH Hrun.
    destruct ev as [c|o]; simpl in Hs.
    + inversion Hs; subst w1. unfold call_request.
      destruct (Fetchable.request (record w)); [reflexivity|destruct c; reflexivity].
    + destruct (suspended w); [discriminate|].
      inversion Hs; subst w1. clear Hs.
      destruct o as [res|e]; [|reflexivity].
      resumption NODE_ENV res; rewrite <- ?app_assoc; reflexivity.
Qed.

Lemma console_of_run_witness :
  exists w,
    run "development" idle
        [Invoke Returned; Invoke Returned; Settle (Rejected VNull); Settle (Fulfilled VNull)]
      = Some w /\
    console w = [[VStr "[vue-fetchable] Response: "; VNull]].
Proof.
  eexists. split; [reflexivity|].
  exact (console_of_run "development"
           [Invoke Returned; Invoke Returned; Settle (Rejected VNull); Settle (Fulfilled VNull)]
           idle _ eq_refl).
Defined.

(** X19: no success and no abort ever clears [err]: as long as nothing throws or
    rejects with [null] itself, an [err] that is set stays set through
    every run. *)
Theorem err_never_cleared NODE_ENV (evs : list event) (w w' : world) :
  forallb throws_no_null evs = true ->
  Fetchable.err (record w) <> VNull ->
  run NODE_ENV w evs = Some w' ->
  Fetchable.err (record w') <> VNull.
Proof.
  intros Hall H0 Hrun.
  refine (run_invariant NODE_ENV throws_no_null
            (fun w => Fetchable.err (record w) <> VNull) _ evs w w' Hall H0 Hrun).
  clear. intros w ev w' Hev HP Hs. destruct ev as [c|o]; simpl in Hs, Hev.
  - inversion Hs; subst w'. unfold call_request.
    destruct (Fetchable.request (record w)); [exact HP|].
    destruct c as [e|]; [|exact HP].
    simpl. destruct e; try discriminate.
  - destruct (suspended w); [discriminate|].
    inversion Hs; subst w'. clear Hs.
    destruct o as [res|e].
    + resumption NODE_ENV res; try exact HP;
        match goal with
        | H : Get _ _ = Throw ?x |- ?x <> VNull =>
            destruct (Get_throws_TypeError _ _ _ H) as [m ->]; discriminate
        end.
    + simpl. destruct e; try discriminate.
Qed.

Lemma err_never_cleared_witness :
  exists w,
    run "production" (snd (fetchData "production" (Throws (VStr "offline")) idle))
        [Invoke Returned; Settle (Fulfilled sample_success);
         Invoke Returned; Settle (Fulfilled (VBool false))] = Some w /\
    Fetchable.err (record w) <> VNull.
Proof.
  eexists. split; [reflexivity|].
  apply (err_never_cleared "production"
           [Invoke Returned; Settle (Fulfilled sample_success);
            Invoke Returned; Settle (Fulfilled (VBool false))]
           (snd (fetchData "production" (Throws (VStr "offline")) idle))).
  - reflexivity.
  - discriminate.
  - reflexivity.
Defined.

(* ===================================================================== *)
(** ** Construction with a producer that throws, and [frmt] *)
(* ===================================================================== *)

(** X20: when the producer throws from its call during an automatic first
    fetch, construction itself runs the [catch] block: the record comes
    back already failed, with nothing left pending to settle. *)
Theorem hookFetch_producer_throws (e : value) :
  hookFetch (Threw e) None =
    {| record := {| Fetchable.data := VNull; Fetchable.request := FetchData;
                    Fetchable.err := e; Fetchable.fetch := Some false |};
       console := []; calls := 1; suspended := 0 |} /\
  forall NODE_ENV o, step NODE_ENV (hookFetch (Threw e) None) (Settle o) = None.
Proof. split; reflexivity. Qed.

(** X21: every formatted message starts with the library's tag; the words
    follow it separated by single spaces, and without words it is the tag
    alone, with no trailing space. *)
Theorem frmt_tagged (str : list string) :
  String.prefix "[vue-fetchable]" (frmt str) = true /\
  frmt str = match str with
             | [] => "[vue-fetchable]"
             | _ :: _ => "[vue-fetchable] " ++ String.concat " " str
             end.
Proof. destruct str; split; reflexivity. Qed.

(* ===================================================================== *)
(** ** A hook whose producer is [request] *)
(* ===================================================================== *)

Lemma envelope_response (res envelope success : value) :
  Get res "data" = Normal envelope ->
  Get envelope "success" = Normal success ->
  ToBoolean success = true ->
  ToBoolean res = true.
Proof.
  intros Hd Hs Ht.
  destruct res; simpl in Hd; try discriminate; try reflexivity;
    inversion Hd; subst envelope; simpl in Hs; discriminate.
Qed.

(** X22: what [request] wraps, [fetchData] unwraps: when the transport delivers
    an envelope with a truthy [success], the hook ends with [fetch] true and
    the envelope's [data] in [data], [undefined] when the envelope has none. *)
Theorem hook_over_request_success NODE_ENV axios config
        (res envelope success payload : value) (w : world) :
  axios config = Fulfilled res ->
  Get res "data" = Normal envelope ->
  Get envelope "success" = Normal success ->
  ToBoolean success = true ->
  Get envelope "data" = Normal payload ->
  shows (snd (fetchData NODE_ENV (Settles (async_return (request axios config))) w))
        (Some true) payload (Fetchable.err (record w)).
Proof.
  intros Hax Hd Hs Ht Hp.
  rewrite (request_truthy _ _ _ _ _ Hax Hd Hs Ht). simpl async_return.
  apply (fetchData_response NODE_ENV res payload w).
  - exact (envelope_response res envelope success Hd Hs Ht).
  - unfold payload_of. rewrite Hd. exact Hp.
Qed.

Lemma hook_over_request_success_witness :
  shows (snd (fetchData "production"
                (Settles (async_return (request (fun _ => Fulfilled sample_success) (VObj []))))
                idle))
        (Some true) (VObj [("id", VNum 1)]) VNull.
Proof.
  exact (hook_over_request_success "production" (fun _ => Fulfilled sample_success) (VObj [])
           sample_success
           (VObj [("success", VBool true); ("data", VObj [("id", VNum 1)])])
           (VBool true) (VObj [("id", VNum 1)]) idle
           eq_refl eq_refl eq_refl eq_refl eq_refl).
Defined.

(** X23: when the transport delivers an envelope with a falsy [success] and a
    described error, the hook ends with [fetch] false, [data] null and in
    [err] a [BackendFetchError] that holds the description and the response. *)
Theorem hook_over_request_failure NODE_ENV axios config
        (res envelope success error : value) (message : string) (w : world) :
  axios config = Fulfilled res ->
  Get res "data" = Normal envelope ->
  Get envelope "success" = Normal success ->
  ToBoolean success = false ->
  Get envelope "error" = Normal error ->
  Get error "message" = Normal (VStr message) ->
  shows (snd (fetchData NODE_ENV (Settles (async_return (request axios config))) w))
        (Some false) VNull
        (VError "BackendFetchError" message [("error", error); ("res", res)]).
Proof.
  intros Hax Hd Hs Hf He Hm.
  rewrite (request_falsy _ _ _ _ _ _ Hax Hd Hs Hf He).
  unfold BackendFetchError. rewrite Hm. simpl. repeat split.
Qed.

Lemma hook_over_request_failure_witness :
  shows (snd (fetchData "production"
                (Settles (async_return (request (fun _ => Fulfilled sample_failure) (VObj []))))
                idle))
        (Some false) VNull
        (VError "BackendFetchError" "not found"
                [("error", VObj [("message", VStr "not found"); ("code", VNum 404)]);
                 ("res", sample_failure)]).
Proof.
  exact (hook_over_request_failure "production" (fun _ => Fulfilled sample_failure) (VObj [])
           sample_failure
           (VObj [("success", VBool false);
                  ("error", VObj [("message", VStr "not found"); ("code", VNum 404)])])
           (VBool false) (VObj [("message", VStr "not found"); ("code", VNum 404)])
           "not found" idle eq_refl eq_refl eq_refl eq_refl eq_refl eq_refl).
Defined.
